(** * BuzzDB Lab 1: the flat-file store of [buzzdb_lab1.cpp]

    A shallow embedding of the [FlatFile] class and of the test scenarios
    that come with it, followed by the properties of the store.

    Conventions.
    - C++ [int] and [long long] values are carried as [Z].  None of the
      embedded bodies performs arithmetic on them, so no wrap-around has
      to be written out.
    - [std::map<int, T>] is a [gmap Z T]; [unordered_map<string, int>] is a
      [gmap string Z].  Both are extensional: two tables are equal exactly
      when they hold the same rows, whatever the insertion order.
    - The four [std::mutex] members carry no data and no embedded body
      acquires one; they are not part of the state.
    - A non-[const] member function is a computation in the state monad
      [M] over the object and the files on disk; a [const] member function
      is a function of the object. *)

From stdpp Require Import gmap strings list relations.

Local Open Scope Z_scope.
Local Open Scope string_scope.

(** ** Data structures *)

Module User.
Record t : Type := mk {
  id : Z;
  username : string;
  location : string
}.
(* User() = default *)
Definition default : t := mk 0 "" "".
End User.

Module Post.
Record t : Type := mk {
  id : Z;
  content : string;
  username : string;
  views : Z
}.
Definition default : t := mk 0 "" "" 0.
End Post.

Module Engagement.
Record t : Type := mk {
  id : Z;
  postId : Z;
  username : string;
  type : string;
  comment : string;
  timestamp : Z
}.
Definition default : t := mk 0 0 "" "" "" 0.
End Engagement.

(** ** The object and the world around it *)

Record FlatFile : Type := mkFlatFile {
  users_csv_path : string;
  posts_csv_path : string;
  engagements_csv_path : string;
  users : gmap Z User.t;
  posts : gmap Z Post.t;
  engagements : gmap Z Engagement.t;
  username_to_id : gmap string Z
}.

(** The constructor stores the three paths; every container starts empty. *)
Definition FlatFile_new (users_path posts_path engagements_path : string)
  : FlatFile :=
  mkFlatFile users_path posts_path engagements_path ∅ ∅ ∅ ∅.

(** A file is the list of its lines; the disk maps a path to a file. *)
Record World : Type := mkWorld {
  obj : FlatFile;
  disk : gmap string (list string)
}.

(** ** State monad for the non-const member functions *)

Definition M (A : Type) : Type := World → A * World.

Definition ret {A : Type} (a : A) : M A := λ w, (a, w).

Definition bind {A B : Type} (m : M A) (k : A → M B) : M B :=
  λ w, let '(a, w') := m w in k a w'.

(** Read the object through a [const] member function. *)
Definition query {A : Type} (f : FlatFile → A) : M A := λ w, (f (obj w), w).

Notation "x <- m ;; k" := (bind m (λ x, k))
  (at level 100, m at next level, right associativity).
Notation "m ;;; k" := (bind m (λ _, k))
  (at level 100, right associativity).

(** ** Private helpers *)

(* static string trim(const string& s)  { return s; } *)
Definition trim (s : string) : string := s.

(* vector<string> parseCSVLine(const string& line): [cells] is returned as
   it was declared. *)
Definition parseCSVLine (line : string) : M (list string) := ret [].

(* bool safeParseInt(const string& s, int& result): the out-parameter is
   handed back next to the flag. *)
Definition safeParseInt (s : string) (result : Z) : M (bool * Z) :=
  ret (false, result).

(* bool safeParseLongLong(const string& s, long long& result) *)
Definition safeParseLongLong (s : string) (result : Z) : M (bool * Z) :=
  ret (false, result).

(** The three local tables [loadSingleFile] receives by reference. *)
Record LocalTables : Type := mkLocal {
  local_users : gmap Z User.t;
  local_posts : gmap Z Post.t;
  local_engagements : gmap Z Engagement.t
}.

(* void loadSingleFile(int type, map&, map&, map&): no statement after the
   (void) casts. *)
Definition loadSingleFile (type : Z) (loc : LocalTables) : M LocalTables :=
  ret loc.

(* bool atomicWriteCSV(path, header, lines)  { return false; } *)
Definition atomicWriteCSV (path header : string) (lines : list string)
  : M bool :=
  ret false.

(* void rebuildIndexes()  { } *)
Definition rebuildIndexes : M unit := ret tt.

(** ** Public member functions *)

(* void loadFlatFile()  { } *)
Definition loadFlatFile : M unit := ret tt.

(* void loadMultipleFlatFilesInParallel()  { }
   The body starts no thread, so there is no interleaving to account for. *)
Definition loadMultipleFlatFilesInParallel : M unit := ret tt.

(* bool updatePostViews(int post_id, int views_count)  { return false; } *)
Definition updatePostViews (post_id views_count : Z) : M bool := ret false.

(* void addEngagementRecord(Engagement& record)  { }
   The call yields no value; the record passed by reference is handed back
   as the caller finds it afterwards. *)
Definition addEngagementRecord (record : Engagement.t)
  : M (unit * Engagement.t) :=
  ret (tt, record).

(* vector<pair<int,string>> getAllUserComments(int user_id) { return {}; } *)
Definition getAllUserComments (user_id : Z) : M (list (Z * string)) :=
  ret [].

(* pair<int,int> getAllEngagementsByLocation(string location)
   { return {0, 0}; } *)
Definition getAllEngagementsByLocation (location : string) : M (Z * Z) :=
  ret (0, 0).

(* bool updateUserName(int user_id, string new_username) { return false; } *)
Definition updateUserName (user_id : Z) (new_username : string) : M bool :=
  ret false.

(** ** Accessors *)

Definition getUserCount (f : FlatFile) : nat := size (users f).
Definition getPostCount (f : FlatFile) : nat := size (posts f).
Definition getEngagementCount (f : FlatFile) : nat := size (engagements f).

(* users.count(id) > 0 *)
Definition hasUser (id : Z) (f : FlatFile) : bool :=
  bool_decide (is_Some (users f !! id)).

Definition hasPost (id : Z) (f : FlatFile) : bool :=
  bool_decide (is_Some (posts f !! id)).

(* it != posts.end() ? it->second.views : -1 *)
Definition getPostViews (post_id : Z) (f : FlatFile) : Z :=
  match posts f !! post_id with
  | Some p => Post.views p
  | None => -1
  end.

(* it != users.end() ? it->second.username : "" *)
Definition getUsername (user_id : Z) (f : FlatFile) : string :=
  match users f !! user_id with
  | Some u => User.username u
  | None => ""
  end.

(** ** Rejections as a caller sees them *)

Inductive ValidationError : Type := DanglingPost | DanglingUser.

(** The error a caller can read off the value of an [addEngagementRecord]
    call.  The member function is declared [void]: the value is [tt]
    whatever the candidate was, and carries no error. *)
Definition reported_error (r : unit) : option ValidationError := None.

(** A candidate is dangling when its post id is not a key of the posts
    table or no row of the users table bears its username. *)
Definition dangling (record : Engagement.t) (f : FlatFile) : Prop :=
  posts f !! Engagement.postId record = None
  ∨ ∀ id u, users f !! id = Some u →
            User.username u ≠ Engagement.username record.

(** ** A small populated store *)

Module Sample.
Definition alice : User.t := User.mk 1 "alice" "Atlanta".
Definition bob : User.t := User.mk 2 "bob" "Boston".
Definition eve : User.t := User.mk 5 "eve" "Atlanta".

Definition post1 : Post.t := Post.mk 1 "Hello world" "alice" 0.
Definition post2 : Post.t := Post.mk 2 "Go Jackets" "bob" 10.
Definition post3 : Post.t := Post.mk 3 "Databases are fun" "eve" 7.
Definition post4 : Post.t := Post.mk 4 "Atlanta is great" "alice" 3.

Definition eng1 : Engagement.t :=
    Engagement.mk 1 2 "alice" "like" "" 1706400000.
Definition eng2 : Engagement.t :=
    Engagement.mk 2 3 "eve" "like" "" 1706400100.
Definition eng3 : Engagement.t :=
    Engagement.mk 3 1 "bob" "like" "" 1706400200.
Definition eng4 : Engagement.t :=
    Engagement.mk 4 4 "bob" "comment" "I love Atlanta too" 1706400300.
Definition eng5 : Engagement.t :=
    Engagement.mk 5 2 "bob" "comment" "nice!" 1706400400.

Definition store : FlatFile :=
    mkFlatFile "users.csv" "posts.csv" "engagements.csv"
      (<[1 := alice]> (<[2 := bob]> (<[5 := eve]> ∅)))
      (<[1 := post1]> (<[2 := post2]> (<[3 := post3]> (<[4 := post4]> ∅))))
      (<[1 := eng1]> (<[2 := eng2]> (<[3 := eng3]>
         (<[4 := eng4]> (<[5 := eng5]> ∅)))))
      (<["alice" := 1]> (<["bob" := 2]> (<["eve" := 5]> ∅))).

Definition users_lines : list string :=
  ["id,username,location"; "1,alice,Atlanta"; "2,bob,Boston";
   "5,eve,Atlanta"].

Definition posts_lines : list string :=
  ["id,content,username,views"; "1,Hello world,alice,0";
   "2,Go Jackets,bob,10"; "3,Databases are fun,eve,7";
   "4,Atlanta is great,alice,3"].

Definition engagements_lines : list string :=
  ["id,postId,username,type,comment,timestamp";
   "1,2,alice,like,,1706400000"; "2,3,eve,like,,1706400100";
   "3,1,bob,like,,1706400200";
   "4,4,bob,comment,I love Atlanta too,1706400300";
   "5,2,bob,comment,nice!,1706400400"].

Definition files : gmap string (list string) :=
  <["users.csv" := users_lines]>
    (<["posts.csv" := posts_lines]>
       (<["engagements.csv" := engagements_lines]> ∅)).

Definition world : World := mkWorld store files.

  (** A candidate naming a post that is not in the table. *)
Definition orphan : Engagement.t :=
    Engagement.mk 0 999 "eve" "like" "" 1706500000.
End Sample.

(** ** The test scenarios of the source

    Each scenario is run against the files found on [d] and yields the
    value of its [passed] flag; console output is left out. *)

Definition fresh (d : gmap string (list string)) : World :=
  mkWorld (FlatFile_new "users.csv" "posts.csv" "engagements.csv") d.

Definition test1_single_threaded_load (d : gmap string (list string)) : bool :=
  fst ((loadFlatFile ;;;
        nu <- query getUserCount ;;
        np <- query getPostCount ;;
        ne <- query getEngagementCount ;;
        h1 <- query (hasUser 1) ;;
        h5 <- query (hasUser 5) ;;
        n1 <- query (getUsername 1) ;;
        ret (bool_decide (nu = 5%nat) && bool_decide (np = 5%nat)
             && bool_decide (ne = 8%nat) && (h1 && h5)
             && bool_decide (n1 = "alice"))) (fresh d)).

(** Two instances over the same files; the timing is not observed. *)
Definition test2_parallel_load (d : gmap string (list string)) : bool :=
  let db1 := obj (snd (loadFlatFile (fresh d))) in
  let db2 := obj (snd (loadMultipleFlatFilesInParallel (fresh d))) in
  bool_decide (getUserCount db2 = getUserCount db1)
  && bool_decide (getPostCount db2 = getPostCount db1)
  && bool_decide (getEngagementCount db2 = getEngagementCount db1).

Definition test3_user_comments (d : gmap string (list string)) : bool :=
  fst ((loadFlatFile ;;;
        c2 <- getAllUserComments 2 ;;
        c4 <- getAllUserComments 4 ;;
        ret (bool_decide (c2 = [(4, "I love Atlanta too")])
             && bool_decide (length c4 = 1%nat))) (fresh d)).

Definition test4_engagements_by_location (d : gmap string (list string))
  : bool :=
  fst ((loadFlatFile ;;;
        a <- getAllEngagementsByLocation "Atlanta" ;;
        b <- getAllEngagementsByLocation "Boston" ;;
        ret (bool_decide (a = (2, 0)) && bool_decide (b = (1, 1))))
       (fresh d)).

Definition test5_update_views (d : gmap string (list string)) : bool :=
  fst ((loadFlatFile ;;;
        initial_views <- query (getPostViews 1) ;;
        r1 <- updatePostViews 1 50 ;;
        new_views <- query (getPostViews 1) ;;
        r2 <- updatePostViews 999 10 ;;
        ret (r1 && bool_decide (new_views = initial_views + 50)
             && negb r2)) (fresh d)).

Definition test6_update_username (d : gmap string (list string)) : bool :=
  fst ((loadFlatFile ;;;
        r <- updateUserName 1 "alice_new" ;;
        n1 <- query (getUsername 1) ;;
        nu <- query getUserCount ;;
        ret (r && bool_decide (n1 = "alice_new")
             && bool_decide (nu = 5%nat))) (fresh d)).

Definition test7_add_engagement (d : gmap string (list string)) : bool :=
  fst ((loadFlatFile ;;;
        initial_count <- query getEngagementCount ;;
        addEngagementRecord
          (Engagement.mk 0 1 "eve" "like" "" 1706500000) ;;;
        n <- query getEngagementCount ;;
        ret (bool_decide (n = (initial_count + 1)%nat))) (fresh d)).

(** ** Concurrent callers of [updatePostViews]

    [test8_concurrent_updates] starts threads that each run a loop of
    [updatePostViews(post_id, 1)] calls on one shared object.  A thread is
    the number of calls it still has to make.  One step lets any thread
    that is not done make its next call; the scheduler is free.  A call is
    one step: the embedded body reads and writes nothing shared, so there
    is nothing inside a call for another thread to interleave with. *)

Inductive step (post_id : Z) : list nat * World → list nat * World → Prop :=
  | step_call (i : nat) (k : nat) (ts : list nat) (w w' : World) (b : bool) :
      ts !! i = Some (S k) →
      updatePostViews post_id 1 w = (b, w') →
      step post_id (ts, w) (<[i := k]> ts, w').

(** Every thread has been joined. *)
Definition joined (ts : list nat) : Prop := Forall (λ k, k = 0%nat) ts.

(** [callers] threads with [each] calls to make. *)
Definition spawn (callers each : nat) : list nat := replicate callers each.


(** ** Sequences of calls on the public interface

    A client of the class can only act on an object through its public
    non-const member functions.  [Call] names one such call with its
    arguments, [Answer] is what comes back, and [perform_all] runs a
    sequence of calls on one object. *)

Inductive Call : Type :=
  | CallLoadFlatFile
  | CallLoadMultipleFlatFilesInParallel
  | CallUpdatePostViews (post_id views_count : Z)
  | CallAddEngagementRecord (record : Engagement.t)
  | CallGetAllUserComments (user_id : Z)
  | CallGetAllEngagementsByLocation (location : string)
  | CallUpdateUserName (user_id : Z) (new_username : string).

Inductive Answer : Type :=
  | AnsVoid
  | AnsBool (b : bool)
  | AnsRecord (record : Engagement.t)
  | AnsComments (pairs : list (Z * string))
  | AnsCounts (likes comments : Z).

Definition perform (c : Call) : M Answer :=
  match c with
  | CallLoadFlatFile => (loadFlatFile ;;; ret AnsVoid)
  | CallLoadMultipleFlatFilesInParallel =>
      (loadMultipleFlatFilesInParallel ;;; ret AnsVoid)
  | CallUpdatePostViews post_id views_count =>
      (b <- updatePostViews post_id views_count ;; ret (AnsBool b))
  | CallAddEngagementRecord record =>
      (r <- addEngagementRecord record ;; ret (AnsRecord (snd r)))
  | CallGetAllUserComments user_id =>
      (l <- getAllUserComments user_id ;; ret (AnsComments l))
  | CallGetAllEngagementsByLocation location =>
      (p <- getAllEngagementsByLocation location ;;
       ret (AnsCounts (fst p) (snd p)))
  | CallUpdateUserName user_id new_username =>
      (b <- updateUserName user_id new_username ;; ret (AnsBool b))
  end.

(** An answer that reports no success and no row. *)
Definition silent (a : Answer) : Prop :=
  match a with
  | AnsVoid => True
  | AnsBool b => b = false
  | AnsRecord _ => True
  | AnsComments pairs => pairs = []
  | AnsCounts likes comments => likes = 0 ∧ comments = 0
  end.

Fixpoint perform_all (cs : list Call) : M (list Answer) :=
  match cs with
  | [] => ret []
  | c :: cs' =>
      (a <- perform c ;; rest <- perform_all cs' ;; ret (a :: rest))
  end.

(** ** The entry point

    [main] dispatches on [atoi(argv[1])] when an argument is given and
    runs every test otherwise.  [atoi] is the C library's; it is taken as
    given.  The value is the exit status together with the numbers of the
    tests that were started, in order; console output is left out. *)

Section Main.
Variable atoi : string → Z.

Definition main (argv : list string) : Z * list nat :=
  match argv with
  | _ :: arg :: _ =>
      match atoi arg with
      | 1 => (0, [1%nat])
      | 2 => (0, [2%nat])
      | 3 => (0, [3%nat])
      | 4 => (0, [4%nat])
      | 5 => (0, [5%nat])
      | 6 => (0, [6%nat])
      | 7 => (0, [7%nat])
      | 8 => (0, [8%nat])
      | _ => (1, [])
      end
  | _ => (0, [1; 2; 3; 4; 5; 6; 7; 8]%nat)
  end.
End Main.

(** * Properties *)

(** ** Unfolding lemmas for the member functions *)

Lemma updatePostViews_eq (post_id views_count : Z) (w : World) :
  updatePostViews post_id views_count w = (false, w).
Proof. reflexivity. Qed.

Lemma updateUserName_eq (user_id : Z) (new_username : string) (w : World) :
  updateUserName user_id new_username w = (false, w).
Proof. reflexivity. Qed.

Lemma addEngagementRecord_eq (record : Engagement.t) (w : World) :
  addEngagementRecord record w = ((tt, record), w).
Proof. reflexivity. Qed.

Lemma atomicWriteCSV_eq (path header : string) (lines : list string)
    (w : World) :
  atomicWriteCSV path header lines w = (false, w).
Proof. reflexivity. Qed.

Lemma loadFlatFile_eq (w : World) : loadFlatFile w = (tt, w).
Proof. reflexivity. Qed.

Lemma loadMultipleFlatFilesInParallel_eq (w : World) :
  loadMultipleFlatFilesInParallel w = (tt, w).
Proof. reflexivity. Qed.

(** ** Loading *)

(** After either loader a fresh instance still holds no row. *)
Lemma loaders_leave_fresh_store_empty (d : gmap string (list string)) :
  getUserCount (obj (snd (loadFlatFile (fresh d)))) = 0%nat
  ∧ getUserCount (obj (snd (loadMultipleFlatFilesInParallel (fresh d)))) = 0%nat.
Proof. split; reflexivity. Qed.

(** C1. Whatever the files on disk and whatever the three paths, running
    [loadFlatFile] on a fresh instance and running
    [loadMultipleFlatFilesInParallel] on another fresh instance give the
    same users, posts and engagements tables (equal as finite maps, hence
    independently of any row order) and the same three counts. *)
Theorem load_equivalence (d : gmap string (list string))
    (users_path posts_path engagements_path : string) :
  let w0 :=
    mkWorld (FlatFile_new users_path posts_path engagements_path) d in
  let db1 := obj (snd (loadFlatFile w0)) in
  let db2 := obj (snd (loadMultipleFlatFilesInParallel w0)) in
  users db1 = users db2
  ∧ posts db1 = posts db2
  ∧ engagements db1 = engagements db2
  ∧ getUserCount db1 = getUserCount db2
  ∧ getPostCount db1 = getPostCount db2
  ∧ getEngagementCount db1 = getEngagementCount db2.
Proof.
  intros w0 db1 db2.
  assert (Hseq : db1 = obj w0)
    by (subst db1; apply (f_equal (obj ∘ snd) (loadFlatFile_eq w0))).
  assert (Hpar : db2 = obj w0)
    by (subst db2;
        apply (f_equal (obj ∘ snd) (loadMultipleFlatFilesInParallel_eq w0))).
  rewrite Hseq, Hpar. repeat split.
Qed.

(** The count comparison of [test2_parallel_load] succeeds on any files. *)
Lemma test2_parallel_load_passes (d : gmap string (list string)) :
  test2_parallel_load d = true.
Proof.
  unfold test2_parallel_load. cbn.
  by rewrite !bool_decide_eq_true_2.
Qed.

(** [test1_single_threaded_load] expects five users after the load and
    does not get them. *)
Lemma test1_single_threaded_load_fails (d : gmap string (list string)) :
  test1_single_threaded_load d = false.
Proof. reflexivity. Qed.

(** ** View counts *)

(** C10. [getPostViews] returns the stored view count of a post that is in
    the table and -1 for an id that is not; a post stored with -1 views
    therefore reads the same as an absent one. *)
Theorem getPostViews_stored_or_sentinel (f : FlatFile) (post_id : Z) :
  (∀ p, posts f !! post_id = Some p → getPostViews post_id f = Post.views p)
  ∧ (posts f !! post_id = None → getPostViews post_id f = -1)
  ∧ (∀ p g, posts f !! post_id = Some p → Post.views p = -1 →
            posts g !! post_id = None →
            getPostViews post_id f = getPostViews post_id g).
Proof.
  unfold getPostViews. split; [|split].
  - intros p Hp. by rewrite Hp.
  - intros Hn. by rewrite Hn.
  - intros p g Hp Hv Hn. by rewrite Hp, Hn.
Qed.

Lemma getPostViews_stored_or_sentinel_witness :
  getPostViews 2 Sample.store = 10
  ∧ getPostViews 999 Sample.store = -1
  ∧ getPostViews 1 (FlatFile_new "u" "p" "e")
    = getPostViews 1
        (mkFlatFile "u" "p" "e" ∅ (<[1 := Post.mk 1 "x" "alice" (-1)]> ∅) ∅ ∅).
Proof.
  split; [|split].
  - apply (proj1 (getPostViews_stored_or_sentinel Sample.store 2)
             Sample.post2).
    vm_compute. reflexivity.
  - apply (proj1 (proj2 (getPostViews_stored_or_sentinel Sample.store 999))).
    vm_compute. reflexivity.
  - symmetry.
    apply (proj2 (proj2 (getPostViews_stored_or_sentinel
             (mkFlatFile "u" "p" "e" ∅ (<[1 := Post.mk 1 "x" "alice" (-1)]> ∅)
                ∅ ∅) 1))
             (Post.mk 1 "x" "alice" (-1)) (FlatFile_new "u" "p" "e")).
    + vm_compute. reflexivity.
    + reflexivity.
    + vm_compute. reflexivity.
Defined.

(** C2. On the sample store post 1 is in the table with 0 views, yet
    [updatePostViews 1 50] answers [false] and the stored count stays 0
    instead of becoming 0 + 50.  (For an absent id the answer [false] and
    the untouched state are what the function's documentation asks for.) *)
Theorem updatePostViews_rejects_present_post :
  let '(ok, w') := updatePostViews 1 50 Sample.world in
  posts (obj Sample.world) !! 1 = Some Sample.post1
  ∧ ok = false
  ∧ w' = Sample.world
  ∧ getPostViews 1 (obj w') = getPostViews 1 (obj Sample.world)
  ∧ getPostViews 1 (obj w') ≠ getPostViews 1 (obj Sample.world) + 50.
Proof. vm_compute. repeat split; discriminate. Qed.

(** The absent half of the same contract does hold: [false], nothing
    changed. *)
Lemma updatePostViews_absent_post (post_id views_count : Z) (w : World) :
  posts (obj w) !! post_id = None →
  updatePostViews post_id views_count w = (false, w).
Proof. intros _. apply updatePostViews_eq. Qed.

Lemma test5_update_views_fails (d : gmap string (list string)) :
  test5_update_views d = false.
Proof. reflexivity. Qed.

(** ** Concurrent increments *)

Lemma step_keeps_world (post_id : Z) (c c' : list nat * World) :
  step post_id c c' → c'.2 = c.2.
Proof.
  destruct 1 as [i k ts w w' b _ Hcall].
  rewrite updatePostViews_eq in Hcall. by inversion Hcall.
Qed.

Lemma run_keeps_world (post_id : Z) (c c' : list nat * World) :
  rtc (step post_id) c c' → c'.2 = c.2.
Proof.
  induction 1 as [c | c1 c2 c3 H12 _ IH]; [done |].
  rewrite IH. by eapply step_keeps_world.
Qed.

(** The first thread can run to the end of its loop on its own. *)
Lemma run_head (post_id : Z) (k : nat) (ts : list nat) (w : World) :
  rtc (step post_id) (k :: ts, w) (0%nat :: ts, w).
Proof.
  induction k as [| k IH]; [apply rtc_refl |].
  eapply rtc_l; [| exact IH].
  change (k :: ts) with (<[0%nat := k]> (S k :: ts)).
  by econstructor.
Qed.

(** A run of the other threads is also a run with one more thread idle. *)
Lemma run_tail (post_id : Z) (x : nat) (c c' : list nat * World) :
  rtc (step post_id) c c' →
  rtc (step post_id) (x :: c.1, c.2) (x :: c'.1, c'.2).
Proof.
  induction 1 as [c | c1 c2 c3 H12 _ IH]; [apply rtc_refl |].
  eapply rtc_l; [| exact IH].
  destruct H12 as [i k ts w w' b Hi Hcall]. simpl.
  change (x :: <[i := k]> ts) with (<[S i := k]> (x :: ts)).
  by econstructor.
Qed.

(** Some schedule lets every thread finish: thread after thread. *)
Lemma run_all (post_id : Z) (ts : list nat) (w : World) :
  rtc (step post_id) (ts, w) (replicate (length ts) 0%nat, w).
Proof.
  induction ts as [| k ts IH]; [apply rtc_refl |]. simpl.
  etrans; [apply run_head |].
  apply (run_tail post_id 0%nat _ _ IH).
Qed.

Lemma joined_replicate (n : nat) : joined (replicate n 0%nat).
Proof. apply Forall_replicate. reflexivity. Qed.

(** Whatever the number of callers, of calls and the schedule, the view
    count read after the threads are joined is the one read before. *)
Lemma concurrent_updates_keep_views (post_id : Z) (callers each : nat)
    (w w' : World) (ts : list nat) :
  rtc (step post_id) (spawn callers each, w) (ts, w') →
  getPostViews post_id (obj w') = getPostViews post_id (obj w).
Proof. intros Hrun. apply run_keeps_world in Hrun. simpl in Hrun. by subst. Qed.

(** C3. Ten callers, ten [updatePostViews 1 1] calls each, post 1 starting
    at 0 views: the threads can all be run to completion, and under every
    schedule the count read after the joins is still 0, not 0 + 10 * 10. *)
Theorem concurrent_updatePostViews_loses_increments :
  getPostViews 1 (obj Sample.world) = 0
  ∧ (∃ ts w, rtc (step 1) (spawn 10 10, Sample.world) (ts, w) ∧ joined ts)
  ∧ (∀ ts w, rtc (step 1) (spawn 10 10, Sample.world) (ts, w) → joined ts →
             getPostViews 1 (obj w) = 0
             ∧ getPostViews 1 (obj w)
               ≠ getPostViews 1 (obj Sample.world) + 10 * 10).
Proof.
  split; [reflexivity | split].
  - exists (replicate (length (spawn 10 10)) 0%nat), Sample.world.
    split; [apply run_all | apply joined_replicate].
  - intros ts w Hrun _.
    rewrite (concurrent_updates_keep_views 1 10 10 _ _ _ Hrun).
    split; [reflexivity | discriminate].
Qed.

(** ** Renaming a user *)

(** C4. On the sample store user 1 is alice, the author of posts 1 and 4
    and of engagement 1, yet [updateUserName 1 "alice_new"] answers
    [false] and the user row, the posts and the engagement keep the old
    name.  (For an absent id the answer [false] is the documented one.) *)
Theorem updateUserName_rejects_present_user :
  let '(ok, w') := updateUserName 1 "alice_new" Sample.world in
  users (obj Sample.world) !! 1 = Some Sample.alice
  ∧ ok = false
  ∧ getUsername 1 (obj w') = "alice"
  ∧ Post.username <$> posts (obj w') !! 1 = Some "alice"
  ∧ Post.username <$> posts (obj w') !! 4 = Some "alice"
  ∧ Engagement.username <$> engagements (obj w') !! 1 = Some "alice"
  ∧ getUsername 1 (obj w') ≠ "alice_new".
Proof. vm_compute. repeat split; discriminate. Qed.

Lemma updateUserName_absent_user (user_id : Z) (new_username : string)
    (w : World) :
  users (obj w) !! user_id = None →
  updateUserName user_id new_username w = (false, w).
Proof. intros _. apply updateUserName_eq. Qed.

Lemma test6_update_username_fails (d : gmap string (list string)) :
  test6_update_username d = false.
Proof. reflexivity. Qed.

(** ** Adding an engagement *)

(** The candidate of the sample names post 999, which is not stored. *)
Lemma orphan_is_dangling : dangling Sample.orphan (obj Sample.world).
Proof. left. vm_compute. reflexivity. Qed.

(** The statement "a dangling candidate makes [addEngagementRecord] return
    a dangling-reference error and leaves everything unchanged" fails on
    the sample: the call has no value to carry an error. *)
Lemma addEngagementRecord_returns_no_error :
  ¬ (dangling Sample.orphan (obj Sample.world) →
     let '(r, _, w') := addEngagementRecord Sample.orphan Sample.world in
     (∃ e : ValidationError, reported_error r = Some e)
     ∧ w' = Sample.world).
Proof.
  intros Hclaim. destruct (Hclaim orphan_is_dangling) as [[e He] _].
  discriminate He.
Qed.

(** C5 (amended). For a candidate whose post id is not in the posts table
    or whose username is not in the users table, [addEngagementRecord]
    hands no error back (it is a [void] function), leaves the candidate as
    it was, and leaves the engagements table, its count, the other tables
    and the files unchanged. *)
Theorem addEngagementRecord_dangling_changes_nothing
    (record : Engagement.t) (w : World) :
  dangling record (obj w) →
  let '(r, record', w') := addEngagementRecord record w in
  reported_error r = None
  ∧ record' = record
  ∧ engagements (obj w') = engagements (obj w)
  ∧ getEngagementCount (obj w') = getEngagementCount (obj w)
  ∧ w' = w.
Proof. intros _. rewrite addEngagementRecord_eq. repeat split. Qed.

Lemma addEngagementRecord_dangling_changes_nothing_witness :
  dangling Sample.orphan (obj Sample.world)
  ∧ let '(r, record', w') :=
      addEngagementRecord Sample.orphan Sample.world in
    reported_error r = None
    ∧ record' = Sample.orphan
    ∧ engagements (obj w') = engagements (obj Sample.world)
    ∧ getEngagementCount (obj w') = getEngagementCount (obj Sample.world)
    ∧ w' = Sample.world.
Proof.
  assert (Hd : dangling Sample.orphan (obj Sample.world))
    by (left; vm_compute; reflexivity).
  split; [exact Hd |].
  exact (addEngagementRecord_dangling_changes_nothing
           Sample.orphan Sample.world Hd).
Defined.

(** A candidate whose references both resolve is not stored either, which
    is what [test7_add_engagement] trips over. *)
Lemma test7_add_engagement_fails (d : gmap string (list string)) :
  test7_add_engagement d = false.
Proof. reflexivity. Qed.

(** ** Queries *)

(** C6. On the sample store user 2 is bob and engagement 4 is a comment by
    bob on post 4, yet [getAllUserComments 2] returns the empty sequence:
    the pair (4, "I love Atlanta too") is missing from the answer. *)
Theorem getAllUserComments_misses_comment :
  let '(answer, w') := getAllUserComments 2 Sample.world in
  users (obj Sample.world) !! 2 = Some Sample.bob
  ∧ engagements (obj Sample.world) !! 4 = Some Sample.eng4
  ∧ Engagement.username Sample.eng4 = User.username Sample.bob
  ∧ Engagement.type Sample.eng4 = "comment"
  ∧ answer = []
  ∧ (Engagement.postId Sample.eng4, Engagement.comment Sample.eng4) ∉ answer.
Proof.
  vm_compute. repeat split. apply not_elem_of_nil.
Qed.

(** The empty answer is the documented one for a user without comments or
    an unknown user id. *)
Lemma getAllUserComments_unknown_user (user_id : Z) (w : World) :
  users (obj w) !! user_id = None →
  getAllUserComments user_id w = ([], w).
Proof. reflexivity. Qed.

Lemma test3_user_comments_fails (d : gmap string (list string)) :
  test3_user_comments d = false.
Proof. reflexivity. Qed.

(** C7. On the sample store alice and eve are the users located in
    "Atlanta" and engagements 1 and 2 are one like by each of them, yet
    [getAllEngagementsByLocation "Atlanta"] returns (0, 0), not (2, 0). *)
Theorem getAllEngagementsByLocation_misses_likes :
  let '(answer, w') := getAllEngagementsByLocation "Atlanta" Sample.world in
  users (obj Sample.world) !! 1 = Some Sample.alice
  ∧ users (obj Sample.world) !! 5 = Some Sample.eve
  ∧ User.location Sample.alice = "Atlanta"
  ∧ User.location Sample.eve = "Atlanta"
  ∧ engagements (obj Sample.world) !! 1 = Some Sample.eng1
  ∧ engagements (obj Sample.world) !! 2 = Some Sample.eng2
  ∧ Engagement.username Sample.eng1 = User.username Sample.alice
  ∧ Engagement.username Sample.eng2 = User.username Sample.eve
  ∧ Engagement.type Sample.eng1 = "like"
  ∧ Engagement.type Sample.eng2 = "like"
  ∧ answer = (0, 0)
  ∧ answer ≠ (2, 0).
Proof. vm_compute. repeat split; discriminate. Qed.

(** With no user at the location the answer (0, 0) is the documented one. *)
Lemma getAllEngagementsByLocation_no_user (location : string) (w : World) :
  (∀ id u, users (obj w) !! id = Some u → User.location u ≠ location) →
  getAllEngagementsByLocation location w = ((0, 0), w).
Proof. reflexivity. Qed.

Lemma test4_engagements_by_location_fails (d : gmap string (list string)) :
  test4_engagements_by_location d = false.
Proof. reflexivity. Qed.

(** ** Numeric fields *)

(** C8. The strings "42" and "1706500000" are complete decimal integers,
    yet [safeParseInt] and [safeParseLongLong] answer [false] on them and
    leave the output parameter as it was; no string at all is accepted. *)
Theorem safeParse_rejects_integers (result : Z) (w : World) :
  safeParseInt "42" result w = ((false, result), w)
  ∧ safeParseLongLong "1706500000" result w = ((false, result), w)
  ∧ (∀ s, fst (fst (safeParseInt s result w)) = false)
  ∧ (∀ s, fst (fst (safeParseLongLong s result w)) = false).
Proof. repeat split. Qed.

(** ** Durable writes *)

Lemma atomicWriteCSV_always_reports_failure (path header : string)
    (lines : list string) (w : World) :
  fst (atomicWriteCSV path header lines w) = false.
Proof. reflexivity. Qed.

(** C9. When [atomicWriteCSV] reports failure, the target holds what it
    held before, no path that was free before the call is occupied after
    it (no temporary file is left behind), and no other file or table has
    changed: the target is never partially written. *)
Theorem atomicWriteCSV_failure_leaves_target (path header : string)
    (lines : list string) (w w' : World) (ok : bool) :
  atomicWriteCSV path header lines w = (ok, w') →
  ok = false →
  disk w' !! path = disk w !! path
  ∧ (∀ p, disk w !! p = None → disk w' !! p = None)
  ∧ w' = w.
Proof.
  rewrite atomicWriteCSV_eq. intros Hcall _.
  inversion Hcall; subst. repeat split; auto.
Qed.

Lemma atomicWriteCSV_failure_leaves_target_witness :
  let '(ok, w') :=
    atomicWriteCSV "posts.csv" "id,content,username,views"
      ["1,Hello world,alice,50"] Sample.world in
  ok = false
  ∧ disk w' !! "posts.csv" = Some Sample.posts_lines
  ∧ disk w' !! "posts.csv.tmp" = None.
Proof.
  pose proof (atomicWriteCSV_failure_leaves_target
                "posts.csv" "id,content,username,views"
                ["1,Hello world,alice,50"] Sample.world Sample.world false
                eq_refl eq_refl) as (Htarget & Htmp & _).
  unfold atomicWriteCSV, ret. split; [reflexivity | split].
  - transitivity (disk Sample.world !! "posts.csv"); [exact Htarget |].
    vm_compute. reflexivity.
  - apply Htmp. vm_compute. reflexivity.
Defined.

(** ** Accessors together *)

Lemma hasPost_true_iff (id : Z) (f : FlatFile) :
  hasPost id f = true ↔ is_Some (posts f !! id).
Proof. unfold hasPost. apply bool_decide_eq_true. Qed.

Lemma hasUser_true_iff (id : Z) (f : FlatFile) :
  hasUser id f = true ↔ is_Some (users f !! id).
Proof. unfold hasUser. apply bool_decide_eq_true. Qed.

Lemma hasPost_false_iff (id : Z) (f : FlatFile) :
  hasPost id f = false ↔ posts f !! id = None.
Proof.
  unfold hasPost. rewrite bool_decide_eq_false, <- eq_None_not_Some. done.
Qed.

Lemma hasUser_false_iff (id : Z) (f : FlatFile) :
  hasUser id f = false ↔ users f !! id = None.
Proof.
  unfold hasUser. rewrite bool_decide_eq_false, <- eq_None_not_Some. done.
Qed.

(** X1. [hasPost] tells the two meanings of -1 apart: when [hasPost] says
    no, [getPostViews] gives -1; when [getPostViews] gives anything else,
    [hasPost] says yes; and when [hasPost] says yes, the value read is the
    stored view count of a row of the table, -1 included. *)
Theorem hasPost_resolves_sentinel (f : FlatFile) (post_id : Z) :
  (hasPost post_id f = false → getPostViews post_id f = -1)
  ∧ (getPostViews post_id f ≠ -1 → hasPost post_id f = true)
  ∧ (hasPost post_id f = true →
     ∃ p, posts f !! post_id = Some p
          ∧ getPostViews post_id f = Post.views p).
Proof.
  unfold getPostViews. split; [| split].
  - intros Hno%hasPost_false_iff. by rewrite Hno.
  - intros Hv. apply hasPost_true_iff.
    destruct (posts f !! post_id) as [p |]; [by eexists | done].
  - intros [p Hp]%hasPost_true_iff. exists p. by rewrite Hp.
Qed.

Lemma hasPost_resolves_sentinel_witness :
  getPostViews 999 Sample.store = -1
  ∧ hasPost 2 Sample.store = true
  ∧ ∃ p, posts Sample.store !! 3 = Some p
         ∧ getPostViews 3 Sample.store = Post.views p.
Proof.
  split; [| split].
  - apply (proj1 (hasPost_resolves_sentinel Sample.store 999)).
    vm_compute. reflexivity.
  - apply (proj1 (proj2 (hasPost_resolves_sentinel Sample.store 2))).
    vm_compute. discriminate.
  - apply (proj2 (proj2 (hasPost_resolves_sentinel Sample.store 3))).
    vm_compute. reflexivity.
Defined.

(** X2. [getUsername] returns the stored username of a user that is in
    the table and the empty string for an id that is not.  When [hasUser]
    says no the answer is empty, and a non-empty answer means the user
    exists; a user stored with an empty username reads like an absent
    one. *)
Theorem getUsername_stored_or_empty (f : FlatFile) (user_id : Z) :
  (∀ u, users f !! user_id = Some u →
        getUsername user_id f = User.username u)
  ∧ (users f !! user_id = None → getUsername user_id f = "")
  ∧ (hasUser user_id f = false → getUsername user_id f = "")
  ∧ (getUsername user_id f ≠ "" → hasUser user_id f = true)
  ∧ (∀ u g, users f !! user_id = Some u → User.username u = "" →
            users g !! user_id = None →
            getUsername user_id f = getUsername user_id g).
Proof.
  unfold getUsername. repeat split.
  - intros u Hu. by rewrite Hu.
  - intros Hn. by rewrite Hn.
  - intros Hno%hasUser_false_iff. by rewrite Hno.
  - intros Hne. apply hasUser_true_iff.
    destruct (users f !! user_id) as [u |]; [by eexists | done].
  - intros u g Hu Hempty Hn. by rewrite Hu, Hn.
Qed.

Lemma getUsername_stored_or_empty_witness :
  getUsername 2 Sample.store = "bob"
  ∧ getUsername 3 Sample.store = ""
  ∧ hasUser 5 Sample.store = true.
Proof.
  split; [| split].
  - apply (proj1 (getUsername_stored_or_empty Sample.store 2) Sample.bob).
    vm_compute. reflexivity.
  - apply (proj1 (proj2 (getUsername_stored_or_empty Sample.store 3))).
    vm_compute. reflexivity.
  - apply (proj1 (proj2 (proj2 (proj2
             (getUsername_stored_or_empty Sample.store 5))))).
    vm_compute. discriminate.
Defined.

(** The size of a table is the number of its keys, and the keys are the
    ids its lookup answers. *)
Lemma table_size_counts_keys {A : Type} (m : gmap Z A) :
  ∃ ids : list Z,
    NoDup ids ∧ length ids = size m ∧ ∀ id, id ∈ ids ↔ is_Some (m !! id).
Proof.
  exists (elements (dom m)). split; [apply NoDup_elements | split].
  - rewrite <- size_dom. reflexivity.
  - intros id. rewrite elem_of_elements. apply elem_of_dom.
Qed.

(** X3. The counts agree with the membership tests: [getUserCount] is the
    number of distinct ids [hasUser] accepts and [getPostCount] the number
    of distinct ids [hasPost] accepts.  In particular a count is 0 exactly
    when the membership test rejects every id. *)
Theorem counts_agree_with_membership (f : FlatFile) :
  (∃ ids : list Z,
     NoDup ids ∧ length ids = getUserCount f
     ∧ ∀ id, id ∈ ids ↔ hasUser id f = true)
  ∧ (∃ ids : list Z,
       NoDup ids ∧ length ids = getPostCount f
       ∧ ∀ id, id ∈ ids ↔ hasPost id f = true)
  ∧ (getUserCount f = 0%nat ↔ ∀ id, hasUser id f = false)
  ∧ (getPostCount f = 0%nat ↔ ∀ id, hasPost id f = false).
Proof.
  split; [| split; [| split]].
  - destruct (table_size_counts_keys (users f)) as (ids & Hnd & Hlen & Hin).
    exists ids. repeat split; try done.
    + intros Hid. apply hasUser_true_iff, Hin, Hid.
    + intros Hid. apply Hin, hasUser_true_iff, Hid.
  - destruct (table_size_counts_keys (posts f)) as (ids & Hnd & Hlen & Hin).
    exists ids. repeat split; try done.
    + intros Hid. apply hasPost_true_iff, Hin, Hid.
    + intros Hid. apply Hin, hasPost_true_iff, Hid.
  - unfold getUserCount. rewrite map_size_empty_iff, map_empty.
    split; intros H id; apply hasUser_false_iff, H.
  - unfold getPostCount. rewrite map_size_empty_iff, map_empty.
    split; intros H id; apply hasPost_false_iff, H.
Qed.

(** ** Sequences of calls *)

Lemma perform_keeps_world (c : Call) (w : World) : snd (perform c w) = w.
Proof. destruct c; reflexivity. Qed.

Lemma perform_all_keeps_world (cs : list Call) (w : World) :
  snd (perform_all cs w) = w.
Proof.
  revert w. induction cs as [| c cs IH]; intros w; [reflexivity |].
  simpl. unfold bind.
  destruct (perform c w) as [a w1] eqn:Hc.
  destruct (perform_all cs w1) as [rest w2] eqn:Hcs. simpl.
  pose proof (perform_keeps_world c w) as H1. rewrite Hc in H1.
  pose proof (IH w1) as H2. rewrite Hcs in H2. simpl in *. congruence.
Qed.

Lemma perform_silent (c : Call) (w : World) : silent (fst (perform c w)).
Proof. destruct c; simpl; auto. Qed.

Lemma perform_all_silent (cs : list Call) (w : World) :
  Forall silent (fst (perform_all cs w)).
Proof.
  revert w. induction cs as [| c cs IH]; intros w; [constructor |].
  simpl. unfold bind.
  destruct (perform c w) as [a w1] eqn:Hc.
  destruct (perform_all cs w1) as [rest w2] eqn:Hcs. simpl.
  constructor.
  - pose proof (perform_silent c w) as H. by rewrite Hc in H.
  - pose proof (IH w1) as H. by rewrite Hcs in H.
Qed.

Lemma perform_all_length (cs : list Call) (w : World) :
  length (fst (perform_all cs w)) = length cs.
Proof.
  revert w. induction cs as [| c cs IH]; intros w; [reflexivity |].
  simpl. unfold bind.
  destruct (perform c w) as [a w1].
  pose proof (IH w1) as H.
  destruct (perform_all cs w1) as [rest w2]. simpl in *. by rewrite H.
Qed.

(** X4. No sequence of calls on the public interface, from any state,
    changes anything: the three tables, the index, the paths and every
    file on disk are afterwards what they were before.  Each call is
    answered, and no answer reports a success, a comment or a non-zero
    count. *)
Theorem public_calls_change_nothing (cs : list Call) (w : World) :
  let '(answers, w') := perform_all cs w in
  obj w' = obj w
  ∧ disk w' = disk w
  ∧ length answers = length cs
  ∧ ∀ a, a ∈ answers →
         a ≠ AnsBool true
         ∧ (∀ pairs, a = AnsComments pairs → pairs = [])
         ∧ (∀ likes comments, a = AnsCounts likes comments →
                              likes = 0 ∧ comments = 0).
Proof.
  pose proof (perform_all_keeps_world cs w) as Hw.
  pose proof (perform_all_silent cs w) as Hs.
  pose proof (perform_all_length cs w) as Hl.
  destruct (perform_all cs w) as [answers w']. simpl in *. subst w'.
  rewrite Forall_forall in Hs.
  split; [done | split; [done | split; [done |]]].
  intros a Ha. specialize (Hs a Ha). split; [| split].
  - intros ->. discriminate Hs.
  - intros pairs ->. exact Hs.
  - intros likes comments ->. exact Hs.
Qed.

(** X5. An object that starts fresh stays empty whatever is called on it
    and whatever the files hold: after any sequence of public calls the
    three counts are 0, [hasUser] and [hasPost] reject every id,
    [getPostViews] gives -1 and [getUsername] the empty string. *)
Theorem fresh_store_stays_empty (d : gmap string (list string))
    (users_path posts_path engagements_path : string) (cs : list Call)
    (id : Z) :
  let w0 :=
    mkWorld (FlatFile_new users_path posts_path engagements_path) d in
  let f := obj (snd (perform_all cs w0)) in
  getUserCount f = 0%nat
  ∧ getPostCount f = 0%nat
  ∧ getEngagementCount f = 0%nat
  ∧ hasUser id f = false
  ∧ hasPost id f = false
  ∧ getPostViews id f = -1
  ∧ getUsername id f = "".
Proof.
  intros w0 f. subst f. rewrite perform_all_keeps_world. subst w0. simpl.
  unfold getUserCount, getPostCount, getEngagementCount, getPostViews,
    getUsername. simpl.
  rewrite !map_size_empty, !lookup_empty.
  repeat split.
Qed.

(** ** Counting the concurrent calls *)

Lemma sum_list_insert_succ (ts : list nat) (i k : nat) :
  ts !! i = Some (S k) → sum_list ts = S (sum_list (<[i := k]> ts)).
Proof.
  revert i. induction ts as [| t ts IH]; intros [| i] Hi; simplify_eq/=.
  - reflexivity.
  - rewrite (IH i Hi). lia.
Qed.

Lemma step_makes_one_call (post_id : Z) (c c' : list nat * World) :
  step post_id c c' → sum_list c.1 = S (sum_list c'.1) ∧ c'.2 = c.2.
Proof.
  intros Hstep. split; [| by eapply step_keeps_world].
  destruct Hstep as [i k ts w w' b Hi _]. simpl.
  by apply sum_list_insert_succ.
Qed.

Lemma nsteps_make_n_calls (post_id : Z) (n : nat) (c c' : list nat * World) :
  nsteps (step post_id) n c c' →
  sum_list c.1 = (n + sum_list c'.1)%nat ∧ c'.2 = c.2.
Proof.
  induction 1 as [c | n c1 c2 c3 H12 _ [IHsum IHw]]; [done |].
  destruct (step_makes_one_call _ _ _ H12) as [Hsum Hw].
  split; [lia | congruence].
Qed.

Lemma joined_iff_no_call_left (ts : list nat) :
  joined ts ↔ sum_list ts = 0%nat.
Proof.
  unfold joined. induction ts as [| t ts IH]; simpl.
  - split; [done | constructor].
  - rewrite Forall_cons, IH. lia.
Qed.

(** X6. Threads that call [updatePostViews] concurrently, [callers] of
    them with [each] calls to make: some schedule runs them all to the
    join, no schedule runs longer than [callers * each] calls, the threads
    are all done exactly when [callers * each] calls have been made, and
    at every point of every schedule the object and the files are what
    they were at the start. *)
Theorem concurrent_calls_counted (post_id : Z) (callers each : nat)
    (w : World) :
  (∃ ts, nsteps (step post_id) (callers * each) (spawn callers each, w) (ts, w)
         ∧ joined ts)
  ∧ ∀ n ts w',
      nsteps (step post_id) n (spawn callers each, w) (ts, w') →
      (n ≤ callers * each)%nat
      ∧ (joined ts ↔ n = (callers * each)%nat)
      ∧ w' = w.
Proof.
  assert (Hcount : ∀ n ts w',
             nsteps (step post_id) n (spawn callers each, w) (ts, w') →
             (callers * each = n + sum_list ts)%nat ∧ w' = w).
  { intros n ts w' Hrun.
    destruct (nsteps_make_n_calls _ _ _ _ Hrun) as [Hsum Hw]. simpl in *.
    unfold spawn in Hsum. rewrite sum_list_replicate in Hsum. done. }
  split.
  - destruct (rtc_nsteps_1 _ _ (run_all post_id (spawn callers each) w))
      as [n Hrun].
    exists (replicate (length (spawn callers each)) 0%nat).
    split; [| apply joined_replicate].
    destruct (Hcount _ _ _ Hrun) as [Hn _].
    rewrite sum_list_replicate in Hn.
    replace (callers * each)%nat with n by lia. exact Hrun.
  - intros n ts w' Hrun. destruct (Hcount _ _ _ Hrun) as [Hn Hw].
    rewrite joined_iff_no_call_left. repeat split; lia || done.
Qed.


(** X8. Whatever the files hold, the sequential scenarios end the same
    way: tests 1, 3, 4, 5, 6 and 7 leave their [passed] flag false, and
    test 2, which only compares the counts of the two loaders, leaves it
    true. *)
Theorem sequential_tests_outcome (d : gmap string (list string)) :
  test1_single_threaded_load d = false
  ∧ test2_parallel_load d = true
  ∧ test3_user_comments d = false
  ∧ test4_engagements_by_location d = false
  ∧ test5_update_views d = false
  ∧ test6_update_username d = false
  ∧ test7_add_engagement d = false.
Proof.
  split; [reflexivity |]. split; [apply test2_parallel_load_passes |].
  repeat split.
Qed.

(** ** The entry point *)

(** The dispatch of [main] on a test number. *)
Lemma main_dispatch (atoi : string → Z) (prog arg : string)
    (rest : list string) :
  ((1 ≤ atoi arg ≤ 8)%Z
   ∧ main atoi (prog :: arg :: rest) = (0, [Z.to_nat (atoi arg)]))
  ∨ (¬ (1 ≤ atoi arg ≤ 8)%Z ∧ main atoi (prog :: arg :: rest) = (1, [])).
Proof.
  simpl. destruct (atoi arg) as [| p | p].
  - right. split; [lia | reflexivity].
  - do 4 (try destruct p as [p | p |]);
      first [ left; split; [lia | reflexivity]
            | right; split; [lia | reflexivity] ].
  - right. split; [lia | reflexivity].
Qed.

(** X9. The exit status of [main] is 0 or 1, and it is 1 exactly when an
    argument is given whose [atoi] value is not one of 1..8; no test is
    started then.  With a number in 1..8 that test alone is started,
    whatever follows on the command line; without an argument the eight
    tests are started in order.  The status never depends on how a test
    ends. *)
Theorem main_exit_status (atoi : string → Z) (argv : list string) :
  let '(status, started) := main atoi argv in
  (status = 0 ∨ status = 1)
  ∧ (status = 1 ↔
     ∃ prog arg rest, argv = prog :: arg :: rest ∧ ¬ (1 ≤ atoi arg ≤ 8)%Z)
  ∧ (status = 1 → started = [])
  ∧ (∀ prog arg rest, argv = prog :: arg :: rest → (1 ≤ atoi arg ≤ 8)%Z →
                      started = [Z.to_nat (atoi arg)])
  ∧ ((length argv ≤ 1)%nat → started = [1; 2; 3; 4; 5; 6; 7; 8]%nat).
Proof.
  destruct argv as [| prog [| arg rest]].
  - simpl. repeat split; try (by left); try done.
    intros (? & ? & ? & ? & _). done.
  - simpl. repeat split; try (by left); try done.
    intros (? & ? & ? & ? & _). done.
  - destruct (main_dispatch atoi prog arg rest) as [[Hin ->] | [Hout ->]].
    + split; [by left |]. split; [| split; [done | split]].
      * split; [done |]. intros (? & ? & ? & [= <- <- <-] & Hno). done.
      * intros ? ? ? [= <- <- <-] _. reflexivity.
      * simpl. lia.
    + split; [by right |]. split; [| split; [done | split]].
      * split; [| done]. intros _. by exists prog, arg, rest.
      * intros ? ? ? [= <- <- <-] Hin. done.
      * simpl. lia.
Qed.
